(** * SmartPrint: the 4-up invoice reorderer of [reorder_gui.py]

    A shallow embedding of the computational core of [reorder_gui.py]
    ([slice_page_into_quarters], [reorder_stride], [rebuild_pages] and
    [process_pdf]) together with the properties its specification states,
    and of the worker and the window around it ([PdfWorker.run] and the
    slots of [MainWindow]) with what they do with a run and its outcome.

    Conventions of the embedding:
    - a Python function that may raise returns a [result];
    - a Python list is a [list]; [l[k]] is [getitem], which raises
      [IndexError] out of range; [l[a:b]] is [pyslice], which truncates;
    - a [for] loop over a list is [for_in], threading the loop's mutable
      variables as an explicit state;
    - Python [float] arithmetic is an instance of the class [PyFloat]; the
      instance the program runs on is [binary64] (IEEE 754 double precision,
      round to nearest even);
    - an object that is not of the class the code takes it for is a value
      of a type of its own, and an attribute it lacks raises
      [AttributeError];
    - the functions of [str], [os] and [os.path] that the window calls are
      the fields of the class [Host], and the widgets of the window are the
      fields of a record; a signal reaches its slots in the order in which
      they were connected.  The event loop, the worker's thread and
      [closeEvent] are not modelled. *)

From Stdlib Require Import PrimFloat Uint63 ZArith Permutation FinFun.
From stdpp Require Import base decidable option list list_numbers strings gmap pretty.

Set Default Proof Using "Type".

(* ===================================================================== *)
(** * Exceptions and the error monad *)
(* ===================================================================== *)

(** The Python exceptions that the modelled code can raise:
    [AttributeError] when an object has no attribute of the name asked for,
    [FileNotFoundError] when [PdfReader] is given a path with no file, and
    [OSError] (one of its subclasses) when [open(path, "wb")] is refused. *)
Inductive exn : Type :=
  | ValueError (msg : string)
  | IndexError
  | AttributeError (msg : string)
  | FileNotFoundError (path : string)
  | OSError (path : string).

Inductive result (A : Type) : Type :=
  | Ok (a : A)
  | Raise (e : exn).
Arguments Ok {A} a.
Arguments Raise {A} e.

#[global] Instance result_ret : MRet result := λ A a, Ok a.
#[global] Instance result_bind : MBind result := λ A B f m,
  match m with
  | Ok a => f a
  | Raise e => Raise e
  end.

(** [for x in xs: body], with the variables the body updates as state [s]. *)
Fixpoint for_in `{MBind M, MRet M} {I S : Type}
    (xs : list I) (body : I → S → M S) (s : S) : M S :=
  match xs with
  | [] => mret s
  | x :: xs' => s' ← body x s; for_in xs' body s'
  end.

(** [range(n)]. *)
Definition range (n : nat) : list nat := seq 0 n.

(** [l[k]] for a non-negative index [k]. *)
Definition getitem {A : Type} (l : list A) (k : nat) : result A :=
  match l !! k with
  | Some x => Ok x
  | None => Raise IndexError
  end.

(** [l[a:b]] for non-negative bounds: out-of-range bounds are clipped. *)
Definition pyslice {A : Type} (l : list A) (a b : nat) : list A :=
  take (b - a) (drop a l).

(** [enumerate(l)]. *)
Definition enumerate {A : Type} (l : list A) : list (nat * A) :=
  zip (seq 0 (length l)) l.

(* ===================================================================== *)
(** * The stride reorderer *)
(* ===================================================================== *)

(** [reorder_stride(parts)], lines 35-45. *)
Definition reorder_stride {A : Type} (parts : list A) : result (list A * nat) :=
  let total_parts := length parts in
  if negb (total_parts mod 4 =? 0) then
    Raise (ValueError "Total invoices must be divisible by 4.")
  else
    let num_pages := total_parts / 4 in
    reordered ← for_in (range num_pages) (λ i reordered,
      for_in (range 4) (λ j reordered,
        x ← getitem parts (i + j * num_pages);
        mret (reordered ++ [x])) reordered) [];
    mret (reordered, num_pages).

(* ===================================================================== *)
(** * Float arithmetic *)
(* ===================================================================== *)

(** The operations on Python [float]s that the program uses.  [of_int] is
    the conversion of a Python [int] that happens when an [int] meets a
    [float] in an arithmetic operation (the program only converts the
    integers 0 to 4).  Division is only ever by the literal [4.0], so it
    cannot raise [ZeroDivisionError]. *)
Class PyFloat (F : Type) : Type := {
  of_int : nat → F;
  fsub : F → F → F;
  fmul : F → F → F;
  fdiv : F → F → F;
}.

(** IEEE 754 binary64, what a Python [float] is. *)
#[global] Instance binary64 : PyFloat float := {|
  of_int n := PrimFloat.of_uint63 (Uint63.of_Z (Z.of_nat n));
  fsub := PrimFloat.sub;
  fmul := PrimFloat.mul;
  fdiv := PrimFloat.div;
|}.

(* ===================================================================== *)
(** * Pages *)
(* ===================================================================== *)

Section Pages.
Context {F : Type} {PF : PyFloat F}.
(** What identifies the drawn content of a source page. *)
Context {Content : Type}.

(** pypdf's [RectangleObject]: two corners, each [(x, y)]. *)
Record RectangleObject : Type := {
  lower_left : F * F;
  upper_right : F * F;
}.

(** pypdf's [RectangleObject.width] is [right - left], and
    [RectangleObject.height] is [top - bottom]. *)
Definition width (r : RectangleObject) : F :=
  fsub (fst (upper_right r)) (fst (lower_left r)).
Definition height (r : RectangleObject) : F :=
  fsub (snd (upper_right r)) (snd (lower_left r)).

(** A page: its media box, the content it was read with ([None] for a
    blank page) and the pages merged onto it, each with its translation
    [(tx, ty)], in merge order. *)
#[warnings="-register-all"]
Inductive PageObject : Type := {
  mediabox : RectangleObject;
  content : option Content;
  merged : list (PageObject * F * F);
}.

(** What [page.copy()] returns.  [PageObject] has no [copy] of its own:
    the call is [dict.copy()], inherited from [dict], and its result is a
    plain [dict] holding the entries of the page, not a page. *)
Inductive PyDict : Type :=
  | dict_of (page : PageObject).

(** [page.copy()]. *)
Definition copy (page : PageObject) : PyDict := dict_of page.

(** [d.name] for a plain [dict] [d] and a name that is not one of the
    methods of [dict]: there is no such attribute, so the access raises and
    has no value. *)
Definition dict_getattr (d : PyDict) (name : string) : result Empty_set :=
  Raise (AttributeError ("'dict' object has no attribute '" +:+ name +:+ "'")).

(** [slice_page_into_quarters(page)], lines 19-32.  The assignment of line
    29 starts by reading [part.mediabox]; as [part] is a plain [dict] the
    read raises, and the rest of the loop body (the two assignments and the
    [append]) has nothing to run on. *)
Definition slice_page_into_quarters (page : PageObject)
    : result (list PageObject) :=
  let w := width (mediabox page) in
  let h := height (mediabox page) in
  let step := fdiv h (of_int 4) in
  parts ← for_in (range 4) (λ i parts,
    let part := copy page in
    let top := fsub h (fmul step (of_int i)) in
    let bottom := fsub top step in
    dict_getattr part "mediabox" ≫= λ box : Empty_set,
      match box return result (list PageObject) with end) [];
  mret parts.

(** pypdf's [PdfWriter], as the list of its pages.  A page handed out by
    [add_blank_page] is a reference into the writer: it is modelled as
    the page's index, and a merge onto it updates the writer in place. *)
Local Abbreviation PdfWriter := (list PageObject).

(** [writer.add_blank_page(width=w, height=h)]: the new page's reference
    and the updated writer. *)
Definition add_blank_page (w h : F) (writer : PdfWriter) : nat * PdfWriter :=
  (length writer,
   writer ++ [{| mediabox := {| lower_left := (of_int 0, of_int 0);
                                upper_right := (w, h) |};
                 content := None;
                 merged := [] |}]).

(** [page.merge_translated_page(part, tx, ty, expand=False)] on the page
    that [page] refers to. *)
Definition merge_translated_page (page : nat) (part : PageObject) (tx ty : F)
    (writer : PdfWriter) : PdfWriter :=
  alter (λ pg, {| mediabox := mediabox pg;
                  content := content pg;
                  merged := merged pg ++ [(part, tx, ty)] |}) page writer.

(** [rebuild_pages(parts, num_pages, template_page)], lines 48-58. *)
Definition rebuild_pages (parts : list PageObject) (num_pages : nat)
    (template_page : PageObject) : result PdfWriter :=
  let w := width (mediabox template_page) in
  let h := height (mediabox template_page) in
  let step := fdiv h (of_int 4) in
  let writer : PdfWriter := [] in
  writer ← for_in (range num_pages) (λ i writer,
    let '(page, writer) := add_blank_page w h writer in
    for_in (enumerate (pyslice parts (i * 4) ((i + 1) * 4)))
      (λ '(idx, part) writer,
        let y := fsub h (fmul step (of_int (idx + 1))) in
        mret (merge_translated_page page part (of_int 0) y writer))
      writer) writer;
  mret writer.
End Pages.

Arguments RectangleObject F : clear implicits.
Arguments PageObject F Content : clear implicits.
(** pypdf's [PdfWriter], outside the section. *)
Abbreviation PdfWriter F Content := (list (PageObject F Content)).

(* ===================================================================== *)
(** * Orchestration: files, the run's log, and [process_pdf] *)
(* ===================================================================== *)

Section Process.
Context {F : Type} {PF : PyFloat F} {Content : Type}.

Local Abbreviation Page := (PageObject F Content).

(** The core operations a run has started, oldest first.  The log is not
    a variable of the program: it records the order of the calls, so that
    what happens before what can be stated. *)
Inductive Event : Type :=
  | Slice (page : Page)
  | Reorder
  | Rebuild
  | Write (path : string).

(** The world [process_pdf] runs in: the PDF files by path, each as the
    list of its pages; the paths that cannot be opened for writing; and
    the log. *)
Record World : Type := {
  files : gmap string (list Page);
  unwritable : gset string;
  log : list Event;
}.

(** The world after [events] have been logged. *)
Definition logged (w : World) (events : list Event) : World :=
  {| files := files w; unwritable := unwritable w; log := log w ++ events |}.

(** Computations that may raise and that act on the world; the effects
    made before an exception is raised stay. *)
Definition IO (A : Type) : Type := World → result A * World.

#[global] Instance IO_ret : MRet IO := λ A a w, (Ok a, w).
#[global] Instance IO_bind : MBind IO := λ A B f m w,
  match m w with
  | (Ok a, w') => f a w'
  | (Raise e, w') => (Raise e, w')
  end.

Definition raise {A : Type} (e : exn) : IO A := λ w, (Raise e, w).

(** A call of one of the core functions: logged when it starts. *)
Definition call {A : Type} (ev : Event) (r : result A) : IO A := λ w,
  (r, logged w [ev]).

(** An expression that may raise but has no effect. *)
Definition pure {A : Type} (r : result A) : IO A := λ w, (r, w).

(** [PdfReader(src_path).pages]. *)
Definition PdfReader (src_path : string) : IO (list Page) := λ w,
  match files w !! src_path with
  | Some pages => (Ok pages, w)
  | None => (Raise (FileNotFoundError src_path), w)
  end.

(** [with open(dst_path, "wb") as f: writer.write(f)]: the file at
    [dst_path] becomes the writer's document, unless the path cannot be
    opened for writing.  Files are told apart by their path strings: two
    paths that lead to one file are two files here. *)
Definition open_and_write (dst_path : string) (writer : PdfWriter F Content)
    : IO unit := λ w,
  if decide (dst_path ∈ unwritable w) then
    (Raise (OSError dst_path), w)
  else
    (Ok (), {| files := <[dst_path := writer]> (files w);
               unwritable := unwritable w;
               log := log w ++ [Write dst_path] |}).

(** [process_pdf(src_path, dst_path)], lines 61-72. *)
Definition process_pdf (src_path dst_path : string) : IO nat :=
  reader ← PdfReader src_path;
  if bool_decide (length reader = 0) then
    raise (ValueError "Source PDF is empty.")
  else
    parts ← for_in reader (λ p parts,
      quarters ← call (Slice p) (slice_page_into_quarters p);
      mret (parts ++ quarters)) [];
    '(reordered, num_pages) ← call Reorder (reorder_stride parts);
    template_page ← pure (getitem reader 0);
    writer ← call Rebuild (rebuild_pages reordered num_pages template_page);
    _ ← open_and_write dst_path writer;
    mret num_pages.
End Process.

Arguments Event F Content : clear implicits.
Arguments World F Content : clear implicits.

(* ===================================================================== *)
(** * Notions used to state the properties *)
(* ===================================================================== *)

(** The closed form of the list that the two loops of [reorder_stride]
    build for [num_pages = M]: one block of four per output page, reading
    [parts] with default [d]. *)
Definition stride {A : Type} (d : A) (parts : list A) (M : nat) : list A :=
  flat_map (λ i, (λ j, nth (i + j * M) parts d) <$> range 4) (range M).

(** Pile [j] of a stack of [N] printed output pages cut into four: the
    sub-regions at position [j] of the output pages [0 .. N-1], top page
    first. *)
Definition pile {A : Type} (j : nat) (reordered : list A) (N : nat)
    : list (option A) :=
  (λ i, reordered !! (i * 4 + j)) <$> range N.

(** The source position that [reorder_stride] reads for output position
    [k], when there are [M] output pages. *)
Definition stride_index (M k : nat) : nat := k / 4 + (k mod 4) * M.

Section ClosedForms.
Context {F : Type} {PF : PyFloat F} {Content : Type}.
Local Abbreviation Page := (PageObject F Content).

(** The blank page of size [(w, h)] once [group] has been merged onto it
    by the inner loop of [rebuild_pages]. *)
Definition output_page (w h : F) (group : list Page) : Page :=
  {| mediabox := {| lower_left := (of_int 0, of_int 0); upper_right := (w, h) |};
     content := None;
     merged := (λ '(idx, part),
                 (part, of_int 0,
                  fsub h (fmul (fdiv h (of_int 4)) (of_int (idx + 1)))))
               <$> enumerate group |}.
End ClosedForms.

(** Source pages in binary64, with their content named by a string: A4 as
    commonly written, [0 0 595.276 841.89] (the two literals are the
    doubles nearest to 595.276 and 841.89); US Letter, [0 0 612 792]; and a
    degenerate page of height zero, [0 0 612 0]. *)
Definition a4_page (name : string) : PageObject float string :=
  {| mediabox := {| lower_left := (0, 0)%float;
                    upper_right := (0x1.29a353f7ced91p+9, 0x1.a4f1eb851eb85p+9)%float |};
     content := Some name;
     merged := [] |}.

Definition letter_page (name : string) : PageObject float string :=
  {| mediabox := {| lower_left := (0, 0)%float;
                    upper_right := (612, 792)%float |};
     content := Some name;
     merged := [] |}.

Definition flat_page (name : string) : PageObject float string :=
  {| mediabox := {| lower_left := (0, 0)%float;
                    upper_right := (612, 0)%float |};
     content := Some name;
     merged := [] |}.

(** Two worlds with a source file: one whose PDF has no page, one whose
    PDF has two US Letter pages. *)
Definition empty_source_world : World float string :=
  {| files := {[ "in.pdf" := [] ]}; unwritable := ∅; log := [] |}.

Definition two_page_world : World float string :=
  {| files := {[ "in.pdf" := [letter_page "A"; letter_page "B"] ]};
     unwritable := ∅;
     log := [] |}.

(** The flattened sequence of a two-page source, pages A and B, each
    quarter named by its page and its index from the top. *)
Definition two_pages : list string :=
  ["A0"; "A1"; "A2"; "A3"; "B0"; "B1"; "B2"; "B3"].

Definition one_page : list string := ["A0"; "A1"; "A2"; "A3"].

(* ===================================================================== *)
(** * The background worker *)
(* ===================================================================== *)

(** What the program takes from Python's [str], [os] and [os.path], and
    does not define: the functions of the host the window runs on, acting
    on the host's file system [St]. *)
Class Host (St : Type) : Type := {
  (** [s.strip()] *)
  strip : string → string;
  (** [os.path.splitext(path)] *)
  splitext : string → string * string;
  (** [os.path.dirname(path)] *)
  dirname : string → string;
  (** [os.path.abspath(path)], which reads the current directory *)
  abspath : string → St → string;
  (** [os.path.isfile(path)] *)
  isfile : string → St → bool;
  (** [os.path.exists(path)] *)
  path_exists : string → St → bool;
  (** [os.makedirs(path, exist_ok=True)] *)
  makedirs : string → St → result unit * St;
  (** [os.access(path, os.W_OK)] *)
  access_W_OK : string → St → bool;
}.

(** The signals of [PdfWorker], each with the value it is emitted with. *)
Inductive Signal : Type :=
  | progress (msg : string)
  | finished (pages : nat)
  | failed (msg : string).

Module PdfWorker.
Section PdfWorker.
Context {F : Type} {PF : PyFloat F} {Content : Type}.
(** The text of an operating-system error, which the host words. *)
Context (os_message : exn → string).

(** [str(exc)]. *)
Definition str (exc : exn) : string :=
  match exc with
  | ValueError msg | AttributeError msg => msg
  | IndexError => "list index out of range"
  | FileNotFoundError _ | OSError _ => os_message exc
  end.

(** [PdfWorker(src, dst).run()], lines 85-91: the signals emitted, oldest
    first, and the world the run leaves.  Every exception of the model is
    an [Exception], so the [except] clause catches whatever [process_pdf]
    raises. *)
Definition run (src dst : string) (w : World F Content)
    : list Signal * World F Content :=
  let emitted := [progress "Processing..."] in
  match process_pdf src dst w with
  | (Ok pages, w') => (emitted ++ [finished pages], w')
  | (Raise exc, w') => (emitted ++ [failed (str exc)], w')
  end.
End PdfWorker.
End PdfWorker.

(* ===================================================================== *)
(** * The main window *)
(* ===================================================================== *)

(** The state of a [QLineEdit]. *)
Record QLineEdit : Type := {
  text : string;
  isEnabled : bool;
}.

(** A [QMessageBox] shown to the user, with its title and its text. *)
Inductive QMessageBox : Type :=
  | warning (title text : string)
  | information (title text : string)
  | critical (title text : string).

Module MainWindow.

(** The window: its two path fields, its status label, whether its run
    button is enabled, the source and destination of the worker it holds
    ([None] before the first run), and the message boxes it has shown,
    oldest first. *)
Record t : Type := {
  src_edit : QLineEdit;
  dst_edit : QLineEdit;
  status_label : string;
  run_button : bool;
  worker : option (string * string);
  shown : list QMessageBox;
}.

(** [MainWindow()], lines 95-132. *)
Definition __init__ : t :=
  {| src_edit := {| text := ""; isEnabled := true |};
     dst_edit := {| text := ""; isEnabled := true |};
     status_label := "Ready.";
     run_button := true;
     worker := None;
     shown := [] |}.

Definition setText (s : string) (e : QLineEdit) : QLineEdit :=
  {| text := s; isEnabled := isEnabled e |}.

Definition setEnabled (b : bool) (e : QLineEdit) : QLineEdit :=
  {| text := text e; isEnabled := b |}.

Definition set_status (s : string) (win : t) : t :=
  {| src_edit := src_edit win; dst_edit := dst_edit win; status_label := s;
     run_button := run_button win; worker := worker win; shown := shown win |}.

Definition show (box : QMessageBox) (win : t) : t :=
  {| src_edit := src_edit win; dst_edit := dst_edit win;
     status_label := status_label win; run_button := run_button win;
     worker := worker win; shown := shown win ++ [box] |}.

(** [_set_running(running)], lines 204-207. *)
Definition _set_running (running : bool) (win : t) : t :=
  {| src_edit := setEnabled (negb running) (src_edit win);
     dst_edit := setEnabled (negb running) (dst_edit win);
     status_label := status_label win;
     run_button := negb running;
     worker := worker win;
     shown := shown win |}.

(** [_on_progress(msg)], lines 190-192. *)
Definition _on_progress (msg : string) (win : t) : t := set_status msg win.

(** [_on_finished(pages)], lines 194-197. *)
Definition _on_finished (pages : nat) (win : t) : t :=
  let win := set_status ("Done. Pages: " +:+ pretty pages) win in
  show (information "Completed" ("Finished. Pages: " +:+ pretty pages)) win.

(** [_on_failed(msg)], lines 199-202. *)
Definition _on_failed (msg : string) (win : t) : t :=
  let win := set_status ("Failed: " +:+ msg) win in
  show (critical "Error" msg) win.

(** The slots that a signal of the worker reaches, in the order in which
    [_run] connects them (lines 164-168). *)
Definition deliver (win : t) (signal : Signal) : t :=
  match signal with
  | progress msg => _on_progress msg win
  | finished pages => _set_running false (_on_finished pages win)
  | failed msg => _set_running false (_on_failed msg win)
  end.

Section OnHost.
Context {St : Type} {host : Host St}.

(** [_choose_src()], lines 134-142, when the file dialog returns [path]
    (the empty string when the user cancels). *)
Definition _choose_src (path : string) (win : t) : t :=
  if bool_decide (path = "") then win
  else
    let '(base, ext) := splitext path in
    {| src_edit := setText path (src_edit win);
       dst_edit := setText (base +:+ "_reordered" +:+ ext) (dst_edit win);
       status_label := status_label win;
       run_button := run_button win;
       worker := worker win;
       shown := shown win |}.

(** [_choose_dst()], lines 144-149, when the file dialog returns [path]. *)
Definition _choose_dst (path : string) (win : t) : t :=
  if bool_decide (path = "") then win
  else
    {| src_edit := src_edit win;
       dst_edit := setText path (dst_edit win);
       status_label := status_label win;
       run_button := run_button win;
       worker := worker win;
       shown := shown win |}.

(** [_validate_paths(src, dst)], lines 177-188. *)
Definition _validate_paths (src dst : string) (st : St) : result unit * St :=
  if bool_decide (src = "") || bool_decide (dst = "") then
    (Raise (ValueError "Please select both source and output paths."), st)
  else if negb (isfile src st) then
    (Raise (ValueError "Source file does not exist."), st)
  else if bool_decide (abspath src st = abspath dst st) then
    (Raise (ValueError "Source and output paths must be different."), st)
  else
    let dst_dir := if bool_decide (dirname dst = "") then "." else dirname dst in
    let '(made, st) :=
      if negb (path_exists dst_dir st) then makedirs dst_dir st else (Ok (), st) in
    match made with
    | Raise exc => (Raise exc, st)
    | Ok _ =>
        if negb (access_W_OK dst_dir st) then
          (Raise (ValueError "Output directory is not writable."), st)
        else (Ok (), st)
    end.

(** [_run()], lines 151-169, up to the start of the worker's thread.  Only
    a [ValueError] of the validation is caught; any other exception leaves
    the slot. *)
Definition _run (win : t) (st : St) : result t * St :=
  let src := strip (text (src_edit win)) in
  let dst := strip (text (dst_edit win)) in
  match _validate_paths src dst st with
  | (Raise (ValueError msg), st) => (Ok (show (warning "Invalid input" msg) win), st)
  | (Raise exc, st) => (Raise exc, st)
  | (Ok _, st) =>
      let win := _set_running true win in
      let win := set_status "Starting..." win in
      (Ok {| src_edit := src_edit win; dst_edit := dst_edit win;
             status_label := status_label win; run_button := run_button win;
             worker := Some (src, dst); shown := shown win |}, st)
  end.
End OnHost.
End MainWindow.

(** The quarters of a two-page source, page by page. *)
Definition two_groups : list (list string) :=
  [["A0"; "A1"; "A2"; "A3"]; ["B0"; "B1"; "B2"; "B3"]].

(** A small host for examples: its state is the set of the directories
    that exist, all of them writable; the one file is [in.pdf]; paths are
    relative to [/home/user]. *)
#[global] Instance desk : Host (gset string) := {|
  strip s := s;
  splitext p := if bool_decide (p = "in.pdf") then ("in", ".pdf") else (p, "");
  dirname p := if bool_decide (p = "out/res.pdf") then "out" else "";
  abspath p _ := "/home/user/" +:+ p;
  isfile p _ := bool_decide (p = "in.pdf");
  path_exists p st := bool_decide (p ∈ st);
  makedirs p st := (Ok (), {[ p ]} ∪ st);
  access_W_OK p st := bool_decide (p ∈ st);
|}.

(** The same host on a disk where no directory can be created. *)
Definition full_desk : Host (gset string) := {|
  strip := @strip _ desk;
  splitext := @splitext _ desk;
  dirname := @dirname _ desk;
  abspath := @abspath _ desk;
  isfile := @isfile _ desk;
  path_exists := @path_exists _ desk;
  makedirs p st := (Raise (OSError p), st);
  access_W_OK := @access_W_OK _ desk;
|}.

(** The window once [in.pdf] and [out/res.pdf] have been chosen. *)
Definition chosen_window : MainWindow.t :=
  MainWindow._choose_dst "out/res.pdf"
    (MainWindow._choose_src "in.pdf" MainWindow.__init__).

(* ===================================================================== *)
(** * Loops *)
(* ===================================================================== *)

Section LoopFacts.
Context {A I : Type}.

(** A loop that appends one computed element per iteration, none of
    which raises, extends the accumulator by the image of the list. *)
Lemma for_in_append (f : I → result A) (g : I → A) (xs : list I) (acc : list A) :
  (∀ i, i ∈ xs → f i = Ok (g i)) →
  for_in xs (λ i acc, x ← f i; mret (acc ++ [x])) acc = Ok (acc ++ (g <$> xs)).
Proof.
  revert acc. induction xs as [|x xs IH]; intros acc Hf; simpl.
  - by rewrite app_nil_r.
  - rewrite Hf by set_solver. simpl.
    rewrite IH by (intros; apply Hf; set_solver).
    by rewrite <- app_assoc.
Qed.

(** The same for a loop whose body is itself a loop appending a block. *)
Lemma for_in_append_blocks (body : I → list A → result (list A))
    (g : I → list A) (xs : list I) (acc : list A) :
  (∀ i acc, i ∈ xs → body i acc = Ok (acc ++ g i)) →
  for_in xs body acc = Ok (acc ++ flat_map g xs).
Proof.
  revert acc. induction xs as [|x xs IH]; intros acc Hf; simpl.
  - by rewrite app_nil_r.
  - rewrite Hf by set_solver. simpl.
    rewrite IH by (intros; apply Hf; set_solver).
    by rewrite <- app_assoc.
Qed.
End LoopFacts.

(* ===================================================================== *)
(** * The stride reorderer: what it returns *)
(* ===================================================================== *)

Section StrideFacts.
Context {A : Type}.
Implicit Types (parts reordered : list A) (d : A).

Lemma getitem_nth parts k d :
  k < length parts → getitem parts k = Ok (nth k parts d).
Proof.
  intros Hk. unfold getitem.
  destruct (lookup_lt_is_Some_2 parts k Hk) as [x Hx].
  by rewrite Hx, (nth_lookup_Some _ _ d x Hx).
Qed.

Lemma reorder_stride_raises parts :
  length parts mod 4 ≠ 0 →
  reorder_stride parts
  = Raise (ValueError "Total invoices must be divisible by 4.").
Proof.
  intros Hmod. unfold reorder_stride.
  by destruct (Nat.eqb_spec (length parts mod 4) 0).
Qed.

(** On a length divisible by 4 both loops run to their end and build
    [stride]. *)
Lemma reorder_stride_returns d parts :
  length parts mod 4 = 0 →
  reorder_stride parts
  = Ok (stride d parts (length parts / 4), length parts / 4).
Proof.
  intros Hmod. unfold reorder_stride. rewrite Hmod. simpl negb. cbv iota.
  pose proof (Nat.div_mod_eq (length parts) 4) as Hlen.
  set (M := length parts / 4) in *.
  rewrite (for_in_append_blocks _
    (λ i, (λ j, nth (i + j * M) parts d) <$> range 4)).
  - reflexivity.
  - intros i acc Hi. apply for_in_append.
    intros j Hj. apply getitem_nth.
    apply elem_of_seq in Hi. apply elem_of_seq in Hj. nia.
Qed.

Lemma length_blocks (g : nat → nat → A) (s n : nat) :
  length (flat_map (λ i, g i <$> range 4) (seq s n)) = 4 * n.
Proof.
  revert s. induction n as [|n IH]; intros s; simpl; [done|].
  rewrite IH. lia.
Qed.

Lemma lookup_blocks (g : nat → nat → A) (s n i j : nat) :
  i < n → j < 4 →
  flat_map (λ i, g i <$> range 4) (seq s n) !! (i * 4 + j) = Some (g (s + i) j).
Proof.
  revert s i. induction n as [|n IH]; intros s i Hi Hj; [lia|].
  destruct i as [|i].
  - rewrite Nat.add_0_r. simpl.
    by do 4 (destruct j as [|j]; [done|]); lia.
  - change (flat_map _ (seq s (S n)))
      with ((g s <$> range 4) ++ flat_map (λ i, g i <$> range 4) (seq (S s) n)).
    rewrite lookup_app_r by (simpl; lia).
    replace (S i * 4 + j - length (g s <$> range 4)) with (i * 4 + j)
      by (simpl; lia).
    rewrite IH by lia. f_equal. f_equal. lia.
Qed.

Lemma length_stride d parts M : length (stride d parts M) = 4 * M.
Proof. apply (length_blocks (λ i j, nth (i + j * M) parts d)). Qed.

Lemma lookup_stride d parts M i j :
  i < M → j < 4 →
  stride d parts M !! (i * 4 + j) = Some (nth (i + j * M) parts d).
Proof.
  intros. unfold stride, range.
  by rewrite (lookup_blocks (λ i j, nth (i + j * M) parts d)).
Qed.

Lemma stride_index_lt M k : k < 4 * M → stride_index M k < 4 * M.
Proof.
  intros Hk. unfold stride_index.
  pose proof (Nat.div_mod_eq k 4). pose proof (Nat.mod_upper_bound k 4).
  nia.
Qed.

Lemma stride_index_inj M k1 k2 :
  k1 < 4 * M → k2 < 4 * M →
  stride_index M k1 = stride_index M k2 → k1 = k2.
Proof.
  unfold stride_index. intros H1 H2 Heq.
  pose proof (Nat.div_mod_eq k1 4). pose proof (Nat.mod_upper_bound k1 4).
  pose proof (Nat.div_mod_eq k2 4). pose proof (Nat.mod_upper_bound k2 4).
  assert (k1 / 4 < M ∧ k2 / 4 < M) as [??] by lia.
  assert (k1 mod 4 = k2 mod 4) by nia.
  nia.
Qed.

Lemma nth_stride d parts M k :
  k < 4 * M → nth k (stride d parts M) d = nth (stride_index M k) parts d.
Proof.
  intros Hk. unfold stride_index.
  pose proof (Nat.div_mod_eq k 4). pose proof (Nat.mod_upper_bound k 4).
  apply nth_lookup_Some.
  replace k with (k / 4 * 4 + k mod 4) at 1 by lia.
  apply lookup_stride; lia.
Qed.

(** The closed form is a rearrangement of the list it reads, when it
    reads all of it. *)
Lemma stride_Permutation d parts M :
  length parts = 4 * M → stride d parts M ≡ₚ parts.
Proof.
  intros Hlen. symmetry. apply (FinFun.Permutation_nth _ _ d). cbv zeta.
  split; [by rewrite length_stride|].
  exists (stride_index M). rewrite Hlen. split_and!.
  - intros k. apply stride_index_lt.
  - intros k1 k2. apply stride_index_inj.
  - intros k. apply nth_stride.
Qed.

(** What [reorder_stride] returns on a length divisible by 4, without
    reference to a default element. *)
Lemma reorder_stride_spec parts :
  length parts mod 4 = 0 →
  ∃ reordered,
    reorder_stride parts = Ok (reordered, length parts / 4)
    ∧ reordered ≡ₚ parts
    ∧ ∀ i j, i < length parts / 4 → j < 4 →
        ∃ x, parts !! (i + j * (length parts / 4)) = Some x
             ∧ reordered !! (i * 4 + j) = Some x.
Proof.
  intros Hmod. destruct parts as [|d parts'] eqn:Hparts.
  { exists []. split_and!; [done..|]. simpl. intros; lia. }
  rewrite <- Hparts in *. clear Hparts parts'.
  pose proof (Nat.div_mod_eq (length parts) 4) as Hlen.
  exists (stride d parts (length parts / 4)). split_and!.
  - by apply reorder_stride_returns.
  - apply stride_Permutation. lia.
  - intros i j Hi Hj.
    destruct (lookup_lt_is_Some_2 parts (i + j * (length parts / 4)))
      as [x Hx]; [nia|].
    exists x. split; [done|].
    by rewrite lookup_stride, (nth_lookup_Some _ _ d x Hx).
Qed.
End StrideFacts.

(* ===================================================================== *)
(** * The stride reorderer: its properties *)
(* ===================================================================== *)

Section StrideProperties.
Context {A : Type}.
Implicit Types (parts flattened reordered : list A).

(** C3.  For every list [parts] whose length is divisible by 4, with
    [M = len(parts) / 4], [reorder_stride] returns [(reordered, M)] where
    [reordered[i*4 + j] = parts[i + j*M]] for every [i] in [[0, M)] and
    [j] in [[0, 4)]: the stride runs over flat sub-region positions, so
    output page [i] holds the sub-regions at flat positions [i], [i+M],
    [i+2M], [i+3M] (all of them in range). *)
Theorem reorder_stride_flat_index_law parts :
  length parts mod 4 = 0 →
  ∃ reordered,
    reorder_stride parts = Ok (reordered, length parts / 4)
    ∧ ∀ i j, i < length parts / 4 → j < 4 →
        is_Some (parts !! (i + j * (length parts / 4)))
        ∧ reordered !! (i * 4 + j) = parts !! (i + j * (length parts / 4)).
Proof.
  intros Hmod.
  destruct (reorder_stride_spec parts Hmod) as (reordered & Hrun & _ & Hlaw).
  exists reordered. split; [exact Hrun|].
  intros i j Hi Hj. destruct (Hlaw i j Hi Hj) as (x & Hx & Hr).
  rewrite Hx, Hr. eauto.
Qed.

(** C2.  For every list whose length is divisible by 4 (positive or
    not), the list that [reorder_stride] returns is a permutation of its
    input, so nothing is duplicated or dropped, and it has the input's
    length [4N], where [N] is the returned page count. *)
Theorem reorder_stride_permutation parts :
  length parts mod 4 = 0 →
  ∃ reordered N,
    reorder_stride parts = Ok (reordered, N)
    ∧ length parts = 4 * N
    ∧ reordered ≡ₚ parts
    ∧ length reordered = 4 * N.
Proof.
  intros Hmod.
  destruct (reorder_stride_spec parts Hmod) as (reordered & Hrun & Hperm & _).
  exists reordered, (length parts / 4).
  pose proof (Nat.div_mod_eq (length parts) 4) as Hlen.
  split_and!; [done|lia|done|].
  rewrite (Permutation_length Hperm). lia.
Qed.

(** C4.  On a list whose length is not divisible by 4, [reorder_stride]
    raises [ValueError("Total invoices must be divisible by 4.")] and
    returns nothing; on a list whose length is divisible by 4 it returns
    a result and raises nothing. *)
Theorem reorder_stride_divisibility_guard parts :
  (length parts mod 4 ≠ 0 →
     reorder_stride parts
     = Raise (ValueError "Total invoices must be divisible by 4."))
  ∧ (length parts mod 4 = 0 → ∃ r, reorder_stride parts = Ok r).
Proof.
  split.
  - apply reorder_stride_raises.
  - intros Hmod.
    destruct (reorder_stride_spec parts Hmod) as (reordered & Hrun & _).
    eauto.
Qed.

(** C8.  On the four sub-regions of a single source page ([N = 1]),
    [reorder_stride] returns its input unchanged, with page count 1. *)
Theorem reorder_stride_single_page parts :
  length parts = 4 → reorder_stride parts = Ok (parts, 1).
Proof.
  intros Hlen.
  do 4 (destruct parts as [|? parts]; [discriminate Hlen|]).
  destruct parts; [reflexivity|discriminate Hlen].
Qed.

(** C1, amended.  For every flattened sequence of length [4N] with
    [N >= 1], [reorder_stride] returns [(reordered, N)] with
    [reordered[i*4 + j] = flattened[i + j*N]] for every [i] in [[0, N)]
    and [j] in [[0, 4)]; equivalently, pile [j] is the run of the [N]
    sub-regions at the flat positions [jN, jN+1, ..., jN+N-1], in
    increasing order. *)
Theorem reorder_stride_pile_law flattened N :
  1 ≤ N →
  length flattened = 4 * N →
  ∃ reordered,
    reorder_stride flattened = Ok (reordered, N)
    ∧ (∀ i j, i < N → j < 4 →
         reordered !! (i * 4 + j) = flattened !! (i + j * N))
    ∧ (∀ j, j < 4 →
         pile j reordered N = Some <$> take N (drop (j * N) flattened)).
Proof.
  intros HN Hlen.
  assert (length flattened / 4 = N) as HM.
  { rewrite Hlen, Nat.mul_comm. by apply Nat.div_mul. }
  assert (length flattened mod 4 = 0) as Hmod.
  { rewrite Hlen, Nat.mul_comm. by apply Nat.Div0.mod_mul. }
  destruct (reorder_stride_spec flattened Hmod)
    as (reordered & Hrun & _ & Hlaw).
  rewrite HM in Hrun, Hlaw.
  assert (∀ i j, i < N → j < 4 →
            reordered !! (i * 4 + j) = flattened !! (i + j * N)) as Hidx.
  { intros i j Hi Hj. destruct (Hlaw i j Hi Hj) as (x & Hx & Hr). congruence. }
  exists reordered. split_and!; [done..|].
  intros j Hj. unfold pile, range. apply list_eq. intros i.
  rewrite !list_lookup_fmap.
  destruct (decide (i < N)) as [Hi|Hi].
  - rewrite lookup_seq_lt by done. simpl.
    rewrite lookup_take_lt, lookup_drop by done.
    rewrite Hidx by done.
    destruct (Hlaw i j Hi Hj) as (x & Hx & _).
    replace (j * N + i) with (i + j * N) by lia.
    by rewrite Hx.
  - rewrite lookup_seq_ge by lia.
    by rewrite lookup_take_ge by lia.
Qed.
End StrideProperties.

(** ** The stride reorderer on a two-page source *)

Example reorder_stride_two_pages :
  reorder_stride two_pages
  = Ok (["A0"; "A2"; "B0"; "B2"; "A1"; "A3"; "B1"; "B3"], 2).
Proof. reflexivity. Qed.

(** C1, as stated, fails.  With [N = 2], the stated law asks for
    [reordered[1*4 + 0] = flattened[(1 + 0*2)*4 + 0]], the quarter [B0],
    where [reorder_stride] puts [A1]; and for
    [reordered[0*4 + 1] = flattened[(0 + 1*2)*4 + 1]], a position past the
    end of the 8 sub-regions, where [reorder_stride] puts [A2]. *)
Lemma reorder_stride_page_law_fails :
  ∃ reordered,
    reorder_stride two_pages = Ok (reordered, 2)
    ∧ reordered !! (1 * 4 + 0) = Some "A1"
    ∧ two_pages !! ((1 + 0 * 2) * 4 + 0) = Some "B0"
    ∧ reordered !! (0 * 4 + 1) = Some "A2"
    ∧ two_pages !! ((0 + 1 * 2) * 4 + 1) = None.
Proof. eexists. split; [reflexivity|]. by split_and!. Qed.

Lemma reorder_stride_pile_law_witness :
  1 ≤ 2 ∧ length two_pages = 4 * 2
  ∧ ∃ reordered,
      reorder_stride two_pages = Ok (reordered, 2)
      ∧ (∀ i j, i < 2 → j < 4 →
           reordered !! (i * 4 + j) = two_pages !! (i + j * 2))
      ∧ (∀ j, j < 4 →
           pile j reordered 2 = Some <$> take 2 (drop (j * 2) two_pages)).
Proof.
  split; [lia|]. split; [reflexivity|].
  apply reorder_stride_pile_law; [lia|reflexivity].
Defined.

Lemma reorder_stride_permutation_witness :
  length two_pages mod 4 = 0
  ∧ ∃ reordered N,
      reorder_stride two_pages = Ok (reordered, N)
      ∧ length two_pages = 4 * N
      ∧ reordered ≡ₚ two_pages
      ∧ length reordered = 4 * N.
Proof.
  split; [reflexivity|]. apply reorder_stride_permutation. reflexivity.
Defined.

Lemma reorder_stride_flat_index_law_witness :
  length two_pages mod 4 = 0
  ∧ ∃ reordered,
      reorder_stride two_pages = Ok (reordered, length two_pages / 4)
      ∧ ∀ i j, i < length two_pages / 4 → j < 4 →
          is_Some (two_pages !! (i + j * (length two_pages / 4)))
          ∧ reordered !! (i * 4 + j)
            = two_pages !! (i + j * (length two_pages / 4)).
Proof.
  split; [reflexivity|]. apply reorder_stride_flat_index_law. reflexivity.
Defined.

Lemma reorder_stride_divisibility_guard_witness :
  (length (take 6 two_pages) mod 4 ≠ 0
   ∧ reorder_stride (take 6 two_pages)
     = Raise (ValueError "Total invoices must be divisible by 4."))
  ∧ (length two_pages mod 4 = 0 ∧ ∃ r, reorder_stride two_pages = Ok r).
Proof.
  split.
  - assert (length (take 6 two_pages) mod 4 ≠ 0) as Hmod by (simpl; lia).
    split; [exact Hmod|].
    exact (proj1 (reorder_stride_divisibility_guard (take 6 two_pages)) Hmod).
  - split; [reflexivity|].
    exact (proj2 (reorder_stride_divisibility_guard two_pages) eq_refl).
Defined.

Lemma reorder_stride_single_page_witness :
  length one_page = 4 ∧ reorder_stride one_page = Ok (one_page, 1).
Proof. split; [reflexivity|]. apply reorder_stride_single_page. reflexivity. Defined.

(* ===================================================================== *)
(** * The page splitter and the page rebuilder: what they do *)
(* ===================================================================== *)

Section GeometryFacts.
Context {F : Type} {PF : PyFloat F} {Content : Type}.
Local Abbreviation Page := (PageObject F Content).
Implicit Types (page part template_page : Page) (parts : list Page).

(** The loop of [slice_page_into_quarters] stops in its first iteration,
    at the read of [part.mediabox], whatever the page. *)
Lemma slice_page_into_quarters_raises page :
  slice_page_into_quarters page
  = Raise (AttributeError "'dict' object has no attribute 'mediabox'").
Proof. reflexivity. Qed.

(** The inner loop of [rebuild_pages]: every merge lands on the page that
    [add_blank_page] has just appended, whose reference is its index. *)
Lemma merge_loop (h : F) (group : list (nat * Page))
    (before : PdfWriter F Content) (pg : Page) :
  for_in group (λ '(idx, part) writer,
      mret (merge_translated_page (length before) part (of_int 0)
              (fsub h (fmul (fdiv h (of_int 4)) (of_int (idx + 1)))) writer))
    (before ++ [pg])
  = Ok (before ++
        [{| mediabox := mediabox pg;
            content := content pg;
            merged := merged pg ++
              ((λ '(idx, part),
                 (part, of_int 0,
                  fsub h (fmul (fdiv h (of_int 4)) (of_int (idx + 1)))))
               <$> group) |}]).
Proof.
  revert pg. induction group as [|[idx part] group IH]; intros pg.
  - simpl. rewrite app_nil_r. by destruct pg.
  - cbn [for_in]. unfold mret at 2, result_ret, mbind, result_bind.
    unfold merge_translated_page at 2.
    rewrite alter_app_r_alt, Nat.sub_diag by done. cbn [alter list_alter].
    rewrite IH. cbn [mediabox content merged fmap list_fmap].
    by rewrite <- app_assoc.
Qed.

Lemma flat_map_singleton {X Y : Type} (f : X → Y) (l : list X) :
  flat_map (λ x, [f x]) l = f <$> l.
Proof. induction l as [|x l IH]; simpl; [done|]. by rewrite IH. Qed.

(** [rebuild_pages] never raises: it appends one page per index below
    [num_pages], built from the slice [parts[4i : 4i+4]], however long
    [parts] is. *)
Lemma rebuild_pages_returns parts num_pages template_page :
  rebuild_pages parts num_pages template_page
  = Ok ((λ i, output_page (width (mediabox template_page))
                (height (mediabox template_page))
                (pyslice parts (i * 4) ((i + 1) * 4)))
        <$> range num_pages).
Proof.
  unfold rebuild_pages. cbv zeta.
  rewrite (for_in_append_blocks _
    (λ i, [output_page (width (mediabox template_page))
             (height (mediabox template_page))
             (pyslice parts (i * 4) ((i + 1) * 4))])).
  - simpl. by rewrite flat_map_singleton.
  - intros i acc _. unfold add_blank_page. by rewrite merge_loop.
Qed.

Lemma length_pyslice_group parts N i :
  length parts = 4 * N → i < N →
  length (pyslice parts (i * 4) ((i + 1) * 4)) = 4.
Proof.
  intros Hlen Hi. unfold pyslice. rewrite length_take, length_drop. lia.
Qed.

Lemma lookup_pyslice_group parts i k :
  k < 4 → pyslice parts (i * 4) ((i + 1) * 4) !! k = parts !! (4 * i + k).
Proof.
  intros Hk. unfold pyslice.
  rewrite lookup_take_lt, lookup_drop by lia. f_equal. lia.
Qed.

Lemma lookup_enumerate {X : Type} (l : list X) (k : nat) (x : X) :
  l !! k = Some x → enumerate l !! k = Some (k, x).
Proof.
  intros Hk. unfold enumerate.
  apply lookup_zip_with_Some. exists k, x. split_and!; [done| |done].
  apply lookup_seq. split; [done|]. by eapply lookup_lt_Some.
Qed.
End GeometryFacts.

(* ===================================================================== *)
(** * The page rebuilder and the page splitter: their properties *)
(* ===================================================================== *)

Section GeometryProperties.
Context {F : Type} {PF : PyFloat F} {Content : Type}.
Local Abbreviation Page := (PageObject F Content).
Implicit Types (page part template_page : Page) (parts : list Page).

(** C7.  For every sequence [parts] of length [4N] and every template
    page, of size [(W, H)], [rebuild_pages] builds exactly [N] pages of
    that size; output page [i] has exactly the four sub-regions
    [parts[4i], ..., parts[4i+3]] merged onto it, in this order, the one at
    in-group position [k] translated by [(0, H - H/4*(k+1))]. *)
Theorem rebuild_pages_layout parts N template_page :
  length parts = 4 * N →
  ∃ writer,
    rebuild_pages parts N template_page = Ok writer
    ∧ length writer = N
    ∧ ∀ i, i < N →
        ∃ pg,
          writer !! i = Some pg
          ∧ mediabox pg
            = {| lower_left := (of_int 0, of_int 0);
                 upper_right := (width (mediabox template_page),
                                 height (mediabox template_page)) |}
          ∧ length (merged pg) = 4
          ∧ ∀ k, k < 4 →
              ∃ part,
                parts !! (4 * i + k) = Some part
                ∧ merged pg !! k
                  = Some (part, of_int 0,
                          fsub (height (mediabox template_page))
                            (fmul (fdiv (height (mediabox template_page)) (of_int 4))
                               (of_int (k + 1)))).
Proof.
  intros Hlen. eexists. split; [apply rebuild_pages_returns|].
  unfold range. split; [by rewrite length_fmap, length_seq|].
  intros i Hi.
  exists (output_page (width (mediabox template_page))
            (height (mediabox template_page))
            (pyslice parts (i * 4) ((i + 1) * 4))).
  split; [by rewrite list_lookup_fmap, lookup_seq_lt|].
  pose proof (length_pyslice_group parts N i Hlen Hi) as Hgroup.
  split_and!.
  - done.
  - cbn [merged output_page]. unfold enumerate.
    rewrite length_fmap, length_zip_with, length_seq. lia.
  - intros k Hk.
    destruct (lookup_lt_is_Some_2 (pyslice parts (i * 4) ((i + 1) * 4)) k)
      as [part Hpart]; [lia|].
    exists part. split.
    + by rewrite <- (lookup_pyslice_group parts i k Hk).
    + cbn [merged output_page].
      by rewrite list_lookup_fmap, (lookup_enumerate _ _ _ Hpart).
Qed.

End GeometryProperties.

(* ===================================================================== *)
(** * The page splitter and the page rebuilder on examples *)
(* ===================================================================== *)

(** C6, on the code.  On an A4 page, [0 0 595.276 841.89], as on any
    page, [slice_page_into_quarters] returns no sub-region descriptor: it
    raises [AttributeError] at line 29, where [part], the plain [dict] that
    [page.copy()] returned, is asked for its [mediabox]. *)
Theorem slice_page_into_quarters_raises_on_a4 :
  slice_page_into_quarters (a4_page "A")
  = Raise (AttributeError "'dict' object has no attribute 'mediabox'").
Proof. reflexivity. Qed.



Lemma rebuild_pages_layout_witness :
  length (letter_page <$> one_page) = 4 * 1
  ∧ ∃ writer,
      rebuild_pages (letter_page <$> one_page) 1 (letter_page "T") = Ok writer
      ∧ length writer = 1
      ∧ ∀ i, i < 1 →
          ∃ pg,
            writer !! i = Some pg
            ∧ mediabox pg
              = {| lower_left := (of_int 0, of_int 0);
                   upper_right := (width (mediabox (letter_page "T")),
                                   height (mediabox (letter_page "T"))) |}
            ∧ length (merged pg) = 4
            ∧ ∀ k, k < 4 →
                ∃ part,
                  (letter_page <$> one_page) !! (4 * i + k) = Some part
                  ∧ merged pg !! k
                    = Some (part, of_int 0,
                            fsub (height (mediabox (letter_page "T")))
                              (fmul (fdiv (height (mediabox (letter_page "T")))
                                       (of_int 4))
                                 (of_int (k + 1)))).
Proof.
  split; [reflexivity|]. apply rebuild_pages_layout. reflexivity.
Defined.

(* ===================================================================== *)
(** * Orchestration: what a run does *)
(* ===================================================================== *)

Section ProcessFacts.
Context {F : Type} {PF : PyFloat F} {Content : Type}.
Local Abbreviation Page := (PageObject F Content).
Local Abbreviation World := (World F Content).
Implicit Types (w : World) (pages parts : list Page) (src dst : string).

Lemma IO_bind_ok {A B : Type} (m : IO A) (f : A → IO B) w a w' :
  m w = (Ok a, w') → (m ≫= f) w = f a w'.
Proof. intros Hm. unfold mbind, IO_bind. by rewrite Hm. Qed.

Lemma IO_bind_raise {A B : Type} (m : IO A) (f : A → IO B) w e w' :
  m w = (Raise e, w') → (m ≫= f) w = (Raise e, w').
Proof. intros Hm. unfold mbind, IO_bind. by rewrite Hm. Qed.

Lemma logged_nil w : logged w [] = w.
Proof. unfold logged. rewrite app_nil_r. by destruct w. Qed.

Lemma logged_logged w ev1 ev2 : logged (logged w ev1) ev2 = logged w (ev1 ++ ev2).
Proof. unfold logged. simpl. by rewrite app_assoc. Qed.

Lemma process_pdf_on_missing src dst w :
  files w !! src = None →
  process_pdf src dst w = (Raise (FileNotFoundError src), w).
Proof.
  intros Hsrc. unfold process_pdf.
  by erewrite IO_bind_raise; [|by unfold PdfReader; rewrite Hsrc].
Qed.

Lemma process_pdf_on_empty src dst w :
  files w !! src = Some [] →
  process_pdf src dst w = (Raise (ValueError "Source PDF is empty."), w).
Proof.
  intros Hsrc. unfold process_pdf.
  by erewrite IO_bind_ok; [|by unfold PdfReader; rewrite Hsrc].
Qed.

(** A run on a source of at least one page stops while it splits the
    first page: the exception of [slice_page_into_quarters] leaves the
    splitting loop and [process_pdf]. *)
Lemma process_pdf_on_pages src dst w page pages :
  files w !! src = Some (page :: pages) →
  process_pdf src dst w
  = (Raise (AttributeError "'dict' object has no attribute 'mediabox'"),
     logged w [Slice page]).
Proof.
  intros Hsrc. unfold process_pdf.
  erewrite IO_bind_ok; [|by unfold PdfReader; rewrite Hsrc].
  rewrite bool_decide_eq_false_2 by (simpl; lia).
  erewrite IO_bind_raise; [reflexivity|].
  cbn [for_in]. erewrite IO_bind_raise; [reflexivity|].
  erewrite IO_bind_raise; [reflexivity|].
  unfold call. by rewrite slice_page_into_quarters_raises.
Qed.

End ProcessFacts.

(* ===================================================================== *)
(** * Orchestration: its properties *)
(* ===================================================================== *)

Section ProcessProperties.
Context {F : Type} {PF : PyFloat F} {Content : Type}.
Local Abbreviation Page := (PageObject F Content).
Local Abbreviation World := (World F Content).
Implicit Types (w : World) (pages : list Page) (src dst : string).

(** C5.  On a source document with 0 pages, [process_pdf] raises
    [ValueError("Source PDF is empty.")] and leaves the world as it found
    it: no page has been split, nothing has been reordered or rebuilt (the
    log has no new event) and no file has been written.  On a source with
    at least 1 page it raises no [ValueError] at all. *)
Theorem process_pdf_empty_guard src dst w :
  (files w !! src = Some [] →
     process_pdf src dst w = (Raise (ValueError "Source PDF is empty."), w))
  ∧ (∀ pages, files w !! src = Some pages → 1 ≤ length pages →
       ∀ msg, (process_pdf src dst w).1 ≠ Raise (ValueError msg)).
Proof.
  split.
  - intros Hsrc. unfold process_pdf.
    erewrite IO_bind_ok; [|by unfold PdfReader; rewrite Hsrc].
    reflexivity.
  - intros pages Hsrc Hlen msg.
    destruct pages as [|page pages]; [simpl in Hlen; lia|].
    by rewrite (process_pdf_on_pages src dst w page pages Hsrc).
Qed.

End ProcessProperties.

(** C9, on the code.  On a source of two pages and a destination that can
    be opened, [process_pdf] returns no page count and writes no document:
    it raises the [AttributeError] of [slice_page_into_quarters] while it
    splits the first page. *)
Theorem process_pdf_raises_on_two_pages :
  ∃ w',
    process_pdf "in.pdf" "out.pdf" two_page_world
    = (Raise (AttributeError "'dict' object has no attribute 'mediabox'"), w')
    ∧ log w' = [Slice (letter_page "A")]
    ∧ files w' !! "out.pdf" = None.
Proof.
  eexists. split; [|split].
  - apply (process_pdf_on_pages _ _ _ (letter_page "A") [letter_page "B"]).
    by vm_compute.
  - reflexivity.
  - by vm_compute.
Qed.

Lemma process_pdf_empty_guard_witness :
  (files empty_source_world !! "in.pdf" = Some []
   ∧ process_pdf "in.pdf" "out.pdf" empty_source_world
     = (Raise (ValueError "Source PDF is empty."), empty_source_world))
  ∧ (files two_page_world !! "in.pdf" = Some [letter_page "A"; letter_page "B"]
     ∧ 1 ≤ length [letter_page "A"; letter_page "B"]
     ∧ ∀ msg, (process_pdf "in.pdf" "out.pdf" two_page_world).1
              ≠ Raise (ValueError msg)).
Proof.
  assert (files empty_source_world !! "in.pdf" = Some []) as Hempty
    by (by vm_compute).
  assert (files two_page_world !! "in.pdf"
          = Some [letter_page "A"; letter_page "B"]) as Htwo by (by vm_compute).
  assert (1 ≤ length [letter_page "A"; letter_page "B"]) as Hlen by (simpl; lia).
  split.
  - split; [exact Hempty|].
    exact (proj1 (process_pdf_empty_guard "in.pdf" "out.pdf" empty_source_world)
             Hempty).
  - split; [exact Htwo|]. split; [exact Hlen|].
    exact (proj2 (process_pdf_empty_guard "in.pdf" "out.pdf" two_page_world)
             _ Htwo Hlen).
Defined.

(* ===================================================================== *)
(** * More on the stride reorderer *)
(* ===================================================================== *)

Section StrideMore.
Context {A : Type}.
Implicit Types (parts reordered : list A) (groups : list (list A)).

(** Where an input sub-region goes: with [N] output pages, the sub-region
    at flat position [p] of the input is put on output page [p mod N], at
    position [p / N] from the top. *)
Theorem reorder_stride_destination parts N p :
  length parts = 4 * N →
  p < 4 * N →
  ∃ reordered,
    reorder_stride parts = Ok (reordered, N)
    ∧ p mod N < N ∧ p / N < 4
    ∧ reordered !! ((p mod N) * 4 + p / N) = parts !! p.
Proof.
  intros Hlen Hp.
  assert (N ≠ 0) as HN by lia.
  assert (length parts / 4 = N) as HM.
  { rewrite Hlen, Nat.mul_comm. by apply Nat.div_mul. }
  assert (length parts mod 4 = 0) as Hmod.
  { rewrite Hlen, Nat.mul_comm. by apply Nat.Div0.mod_mul. }
  destruct (reorder_stride_spec parts Hmod) as (reordered & Hrun & _ & Hlaw).
  rewrite HM in Hrun, Hlaw.
  pose proof (Nat.mod_upper_bound p N HN) as Hi.
  assert (p / N < 4) as Hj by (apply Nat.Div0.div_lt_upper_bound; lia).
  exists reordered. split_and!; [done..|].
  destruct (Hlaw _ _ Hi Hj) as (x & Hx & ->). rewrite <- Hx. f_equal.
  pose proof (Nat.div_mod_eq p N). lia.
Qed.

Lemma length_mjoin_quarters groups :
  Forall (λ g, length g = 4) groups → length (mjoin groups) = 4 * length groups.
Proof.
  induction 1 as [|g groups Hg _ IH]; [done|].
  change (mjoin (g :: groups)) with (g ++ mjoin groups).
  rewrite length_app, IH, Hg. simpl. lia.
Qed.

(** The same in terms of source pages.  When the input is the quarters of
    [N] source pages, page after page, position [j] of output page [i] is
    quarter [(i + j*N) mod 4] of source page [(i + j*N) / 4]. *)
Theorem reorder_stride_source_page_law groups :
  Forall (λ g, length g = 4) groups →
  ∃ reordered,
    reorder_stride (mjoin groups) = Ok (reordered, length groups)
    ∧ ∀ i j, i < length groups → j < 4 →
        reordered !! (i * 4 + j)
        = (groups !! ((i + j * length groups) / 4))
            ≫= (λ g, g !! ((i + j * length groups) mod 4)).
Proof.
  intros Hgroups.
  pose proof (length_mjoin_quarters groups Hgroups) as Hlen.
  set (N := length groups) in *.
  assert (length (mjoin groups) / 4 = N) as HM.
  { rewrite Hlen, Nat.mul_comm. by apply Nat.div_mul. }
  assert (length (mjoin groups) mod 4 = 0) as Hmod.
  { rewrite Hlen, Nat.mul_comm. by apply Nat.Div0.mod_mul. }
  destruct (reorder_stride_spec _ Hmod) as (reordered & Hrun & _ & Hlaw).
  rewrite HM in Hrun, Hlaw.
  exists reordered. split; [done|]. intros i j Hi Hj.
  destruct (Hlaw i j Hi Hj) as (x & Hx & ->).
  set (p := i + j * N) in *.
  pose proof (Nat.div_mod_eq p 4) as Hp.
  pose proof (Nat.mod_upper_bound p 4) as Hr.
  replace p with (p / 4 * 4 + p mod 4) in Hx at 1 by lia.
  apply (join_lookup_Some_same_length' 4) in Hx as (g & Hg & Hgx); [|done|lia].
  by rewrite Hg.
Qed.

(** The index law for a result at hand. *)
Lemma reorder_stride_result parts N reordered :
  length parts = 4 * N →
  reorder_stride parts = Ok (reordered, N) →
  length reordered = 4 * N
  ∧ ∀ i j, i < N → j < 4 → reordered !! (i * 4 + j) = parts !! (i + j * N).
Proof.
  intros Hlen Hrun.
  assert (length parts / 4 = N) as HM.
  { rewrite Hlen, Nat.mul_comm. by apply Nat.div_mul. }
  assert (length parts mod 4 = 0) as Hmod.
  { rewrite Hlen, Nat.mul_comm. by apply Nat.Div0.mod_mul. }
  destruct (reorder_stride_spec parts Hmod) as (reordered' & Hrun' & Hperm & Hlaw).
  rewrite HM in Hrun', Hlaw.
  assert (reordered' = reordered) as -> by congruence.
  split; [by rewrite (Permutation_length Hperm)|].
  intros i j Hi Hj. destruct (Hlaw i j Hi Hj) as (x & Hx & Hr). congruence.
Qed.
End StrideMore.

(* ===================================================================== *)
(** * More on the page rebuilder and on a run *)
(* ===================================================================== *)

Section RunMore.
Context {F : Type} {PF : PyFloat F} {Content : Type}.
Local Abbreviation Page := (PageObject F Content).
Local Abbreviation World := (World F Content).
Implicit Types (w : World) (pages parts : list Page) (src dst : string).

(** [rebuild_pages] does not check the length of [parts] against
    [num_pages]: for every [parts] and every [num_pages >= 0] it raises
    nothing and builds [num_pages] blank pages of the template's size; page
    [i] gets the sub-regions that [parts] has at positions [4i .. 4i+3], at
    most 4 and possibly none, each at the offset of its position; what
    [parts] has past position [4 * num_pages] is left out. *)
Theorem rebuild_pages_any_input parts num_pages template_page :
  ∃ writer,
    rebuild_pages parts num_pages template_page = Ok writer
    ∧ length writer = num_pages
    ∧ ∀ i, i < num_pages →
        ∃ pg,
          writer !! i = Some pg
          ∧ content pg = None
          ∧ length (merged pg) = 4 `min` (length parts - 4 * i)
          ∧ ∀ k, k < length (merged pg) →
              ∃ part,
                parts !! (4 * i + k) = Some part
                ∧ merged pg !! k
                  = Some (part, of_int 0,
                          fsub (height (mediabox template_page))
                            (fmul (fdiv (height (mediabox template_page)) (of_int 4))
                               (of_int (k + 1)))).
Proof.
  eexists. split; [apply rebuild_pages_returns|].
  unfold range. split; [by rewrite length_fmap, length_seq|].
  intros i Hi. eexists.
  split; [by rewrite list_lookup_fmap, lookup_seq_lt|].
  assert (length (merged (output_page (width (mediabox template_page))
                            (height (mediabox template_page))
                            (pyslice parts ((0 + i) * 4) ((0 + i + 1) * 4))))
          = 4 `min` (length parts - 4 * i)) as Hmerged.
  { cbn [merged output_page]. unfold enumerate, pyslice.
    rewrite length_fmap, length_zip_with, length_seq, length_take, length_drop.
    lia. }
  split_and!; [done|exact Hmerged|].
  intros k Hk. rewrite Hmerged in Hk. cbn [Nat.add].
  destruct (lookup_lt_is_Some_2 (pyslice parts (i * 4) ((i + 1) * 4)) k)
    as [part Hpart].
  { unfold pyslice. rewrite length_take, length_drop. lia. }
  exists part. split.
  - rewrite <- (lookup_pyslice_group parts i k) by lia. done.
  - cbn [merged output_page].
    by rewrite list_lookup_fmap, (lookup_enumerate _ _ _ Hpart).
Qed.

End RunMore.

Section RunProperties.
Context {F : Type} {PF : PyFloat F} {Content : Type}.
Local Abbreviation Page := (PageObject F Content).
Local Abbreviation World := (World F Content).
Implicit Types (w : World) (pages : list Page) (src dst : string).

End RunProperties.

(* ===================================================================== *)
(** * The worker: what it reports *)
(* ===================================================================== *)

Section WorkerProperties.
Context {F : Type} {PF : PyFloat F} {Content : Type}.
Context (os_message : exn → string).
Implicit Types (w : World F Content) (src dst : string).

End WorkerProperties.

(* ===================================================================== *)
(** * The window: choosing, validating and starting *)
(* ===================================================================== *)

Section WindowProperties.
Context {St : Type} {host : Host St}.
Implicit Types (win : MainWindow.t) (st : St) (src dst path : string).

Lemma string_app_neq_suffix (b e : string) :
  b +:+ "_reordered" +:+ e ≠ b +:+ e.
Proof.
  intros Heq. apply (inj (String.app b)) in Heq.
  apply (f_equal String.length) in Heq.
  change (10 + String.length e = String.length e) in Heq. lia.
Qed.

(** Choosing a source fills in a destination beside it.  When the dialog
    returns a path, and [os.path.splitext] splits it into two parts that
    join back to it, the source field holds the path and the destination
    field the same path with [_reordered] put before the extension, which
    is never the source path itself; the rest of the window is as it
    was. *)
Theorem choose_src_fills_destination path win :
  path ≠ "" →
  (splitext path).1 +:+ (splitext path).2 = path →
  text (MainWindow.src_edit (MainWindow._choose_src path win)) = path
  ∧ text (MainWindow.dst_edit (MainWindow._choose_src path win))
    = (splitext path).1 +:+ "_reordered" +:+ (splitext path).2
  ∧ text (MainWindow.dst_edit (MainWindow._choose_src path win))
    ≠ text (MainWindow.src_edit (MainWindow._choose_src path win))
  ∧ MainWindow.status_label (MainWindow._choose_src path win)
    = MainWindow.status_label win
  ∧ MainWindow.worker (MainWindow._choose_src path win) = MainWindow.worker win
  ∧ MainWindow.shown (MainWindow._choose_src path win) = MainWindow.shown win.
Proof.
  intros Hpath Hjoin. unfold MainWindow._choose_src.
  rewrite bool_decide_eq_false_2 by done.
  destruct (splitext path) as [base ext]. simpl in *.
  split_and!; [done..| |done|done|done].
  rewrite <- Hjoin. apply string_app_neq_suffix.
Qed.

(** What an accepted pair of paths is.  When [_validate_paths] returns,
    neither path is empty, the source is a file, the two paths resolve to
    different absolute paths, and the destination's directory ([.] when
    the destination has none) is writable; that directory has been created
    if it did not exist, and nothing else has been done to the file
    system. *)
Theorem validate_paths_accepts src dst st st' :
  MainWindow._validate_paths src dst st = (Ok (), st') →
  src ≠ "" ∧ dst ≠ ""
  ∧ isfile src st = true
  ∧ abspath src st ≠ abspath dst st
  ∧ access_W_OK (if bool_decide (dirname dst = "") then "." else dirname dst) st' = true
  ∧ if path_exists (if bool_decide (dirname dst = "") then "." else dirname dst) st
    then st' = st
    else makedirs (if bool_decide (dirname dst = "") then "." else dirname dst) st
         = (Ok (), st').
Proof.
  unfold MainWindow._validate_paths.
  set (dst_dir := if bool_decide (dirname dst = "") then "." else dirname dst).
  destruct (bool_decide_reflect (src = "")) as [|Hsrc]; [discriminate|].
  destruct (bool_decide_reflect (dst = "")) as [|Hdst]; [discriminate|].
  cbn [orb]. destruct (isfile src st) eqn:Hfile; [|discriminate].
  cbn [negb]. destruct (bool_decide_reflect (abspath src st = abspath dst st))
    as [|Habs]; [discriminate|].
  destruct (path_exists dst_dir st) eqn:Hexists; cbn [negb].
  - destruct (access_W_OK dst_dir st) eqn:Haccess; cbn [negb]; [|discriminate].
    intros [= <-]. done.
  - destruct (makedirs dst_dir st) as [[[]|exc] st1] eqn:Hmade; [|discriminate].
    destruct (access_W_OK dst_dir st1) eqn:Haccess; cbn [negb]; [|discriminate].
    intros [= <-]. done.
Qed.

(** What validation does to the file system.  [_validate_paths] changes
    the file system only by [os.makedirs] on the destination's directory,
    and only when both paths are non-empty, the source is a file, the two
    absolute paths differ and that directory does not exist; this holds
    whether it then returns or raises. *)
Theorem validate_paths_effect src dst st r st' :
  MainWindow._validate_paths src dst st = (r, st') →
  st' ≠ st →
  src ≠ "" ∧ dst ≠ ""
  ∧ isfile src st = true
  ∧ abspath src st ≠ abspath dst st
  ∧ path_exists (if bool_decide (dirname dst = "") then "." else dirname dst) st = false
  ∧ (makedirs (if bool_decide (dirname dst = "") then "." else dirname dst) st).2 = st'.
Proof.
  unfold MainWindow._validate_paths.
  set (dst_dir := if bool_decide (dirname dst = "") then "." else dirname dst).
  destruct (bool_decide_reflect (src = "")) as [|Hsrc]; [by intros [= _ <-]|].
  destruct (bool_decide_reflect (dst = "")) as [|Hdst]; [by intros [= _ <-]|].
  cbn [orb]. destruct (isfile src st) eqn:Hfile; [|by intros [= _ <-]].
  cbn [negb]. destruct (bool_decide_reflect (abspath src st = abspath dst st))
    as [|Habs]; [by intros [= _ <-]|].
  destruct (path_exists dst_dir st) eqn:Hexists; cbn [negb].
  - destruct (access_W_OK dst_dir st); by intros [= _ <-].
  - destruct (makedirs dst_dir st) as [[[]|exc] st1] eqn:Hmade.
    + destruct (access_W_OK dst_dir st1); intros [= _ <-]; done.
    + intros [= _ <-]. done.
Qed.
End WindowProperties.

Section StartProperties.
Context {St : Type} {host : Host St}.
Implicit Types (win : MainWindow.t) (st : St).

Lemma validate_paths_checked src dst st st' :
  MainWindow._validate_paths src dst st = (Ok (), st') →
  isfile src st = true
  ∧ abspath src st ≠ abspath dst st
  ∧ access_W_OK (if bool_decide (dirname dst = "") then "." else dirname dst) st'
    = true.
Proof.
  unfold MainWindow._validate_paths.
  repeat case_bool_decide; cbn [orb]; try discriminate.
  all: destruct (isfile src st); cbn [negb]; try discriminate.
  all: destruct (path_exists _ st); cbn [negb].
  all: try (destruct (makedirs _ st) as [[[]|exc] st1]; [|discriminate]).
  all: destruct (access_W_OK _ _) eqn:Haccess; cbn [negb]; [|discriminate].
  all: by intros [= <-].
Qed.

(** A worker is only started on validated paths.  When [_run] returns
    without showing a message box, it has created a worker for the
    stripped texts of the two fields, disabled the button and both fields,
    and set the status to "Starting..."; and then the worker's source is a
    file, its two paths resolve to different absolute paths, and the
    destination's directory is writable. *)
Theorem run_starts_worker win st win' st' :
  MainWindow._run win st = (Ok win', st') →
  MainWindow.shown win' = MainWindow.shown win →
  MainWindow.worker win'
  = Some (strip (text (MainWindow.src_edit win)),
          strip (text (MainWindow.dst_edit win)))
  ∧ MainWindow.run_button win' = false
  ∧ isEnabled (MainWindow.src_edit win') = false
  ∧ isEnabled (MainWindow.dst_edit win') = false
  ∧ MainWindow.status_label win' = "Starting..."
  ∧ isfile (strip (text (MainWindow.src_edit win))) st = true
  ∧ abspath (strip (text (MainWindow.src_edit win))) st
    ≠ abspath (strip (text (MainWindow.dst_edit win))) st
  ∧ access_W_OK
      (if bool_decide (dirname (strip (text (MainWindow.dst_edit win))) = "")
       then "." else dirname (strip (text (MainWindow.dst_edit win)))) st'
    = true.
Proof.
  unfold MainWindow._run. cbv zeta.
  destruct (MainWindow._validate_paths _ _ st) as [[[]|exc] st1] eqn:Hvalid.
  - intros [= <- <-] _.
    apply validate_paths_checked in Hvalid as (Hfile & Habs & Haccess).
    by split_and!.
  - destruct exc; intros [= <- <-] Hshown; simpl in Hshown.
    by apply (f_equal length) in Hshown; rewrite length_app in Hshown;
      simpl in Hshown; lia.
Qed.

(** A rejected pair of paths starts nothing.  When [_run] returns having
    shown a message box, validation has raised a [ValueError], the box is
    the warning "Invalid input" with the error's message, and the rest of
    the window (fields, button, status, worker) is as it was. *)
Theorem run_rejects win st win' st' :
  MainWindow._run win st = (Ok win', st') →
  MainWindow.shown win' ≠ MainWindow.shown win →
  ∃ msg,
    (MainWindow._validate_paths (strip (text (MainWindow.src_edit win)))
       (strip (text (MainWindow.dst_edit win))) st).1
    = Raise (ValueError msg)
    ∧ win' = MainWindow.show (warning "Invalid input" msg) win.
Proof.
  unfold MainWindow._run. cbv zeta.
  destruct (MainWindow._validate_paths _ _ st) as [[[]|exc] st1] eqn:Hvalid.
  - intros [= <- <-] Hshown. by destruct Hshown.
  - destruct exc; intros [= <- <-] _. eauto.
Qed.
End StartProperties.

(* ===================================================================== *)
(** * The window: what a run of the worker leaves on it *)
(* ===================================================================== *)

Section SessionProperties.
Context {F : Type} {PF : PyFloat F} {Content : Type}.
Context (os_message : exn → string).
Implicit Types (w : World F Content) (src dst : string) (win : MainWindow.t).

(** Every run of the worker ends in one of its two terminal signals. *)
Lemma run_shape src dst w :
  ∃ terminal,
    (PdfWorker.run os_message src dst w).1 = [progress "Processing..."; terminal]
    ∧ ((∃ pages, terminal = finished pages) ∨ (∃ msg, terminal = failed msg)).
Proof.
  unfold PdfWorker.run. destruct (process_pdf src dst w) as [[pages|exc] w'].
  - exists (finished pages). eauto.
  - exists (failed (PdfWorker.str os_message exc)). eauto.
Qed.

(** The form is never left disabled.  Once the signals of a run of the
    worker have reached the window, whatever the run did, the button and
    both fields are enabled, the texts of the fields and the worker are as
    they were, and exactly one message box has been shown: "Completed"
    with the page count, the status being "Done. Pages: n", or "Error" with
    the message, the status being "Failed: " and the message. *)
Theorem deliver_run_reenables src dst w win :
  MainWindow.run_button
    (foldl MainWindow.deliver win (PdfWorker.run os_message src dst w).1) = true
  ∧ isEnabled (MainWindow.src_edit
      (foldl MainWindow.deliver win (PdfWorker.run os_message src dst w).1)) = true
  ∧ isEnabled (MainWindow.dst_edit
      (foldl MainWindow.deliver win (PdfWorker.run os_message src dst w).1)) = true
  ∧ text (MainWindow.src_edit
      (foldl MainWindow.deliver win (PdfWorker.run os_message src dst w).1))
    = text (MainWindow.src_edit win)
  ∧ text (MainWindow.dst_edit
      (foldl MainWindow.deliver win (PdfWorker.run os_message src dst w).1))
    = text (MainWindow.dst_edit win)
  ∧ MainWindow.worker
      (foldl MainWindow.deliver win (PdfWorker.run os_message src dst w).1)
    = MainWindow.worker win
  ∧ ((∃ pages : nat,
        MainWindow.status_label
          (foldl MainWindow.deliver win (PdfWorker.run os_message src dst w).1)
        = "Done. Pages: " +:+ pretty pages
        ∧ MainWindow.shown
            (foldl MainWindow.deliver win (PdfWorker.run os_message src dst w).1)
          = MainWindow.shown win
            ++ [information "Completed" ("Finished. Pages: " +:+ pretty pages)])
     ∨ (∃ msg,
          MainWindow.status_label
            (foldl MainWindow.deliver win (PdfWorker.run os_message src dst w).1)
          = "Failed: " +:+ msg
          ∧ MainWindow.shown
              (foldl MainWindow.deliver win (PdfWorker.run os_message src dst w).1)
            = MainWindow.shown win ++ [critical "Error" msg])).
Proof.
  destruct (run_shape src dst w) as (terminal & -> & [[pages ->]|[msg ->]]).
  - split_and!; [done..|]. left. by exists pages.
  - split_and!; [done..|]. right. by exists msg.
Qed.

End SessionProperties.

(* ===================================================================== *)
(** * The further properties on examples *)
(* ===================================================================== *)

Lemma reorder_stride_destination_witness :
  length two_pages = 4 * 2 ∧ 5 < 4 * 2
  ∧ ∃ reordered,
      reorder_stride two_pages = Ok (reordered, 2)
      ∧ 5 mod 2 < 2 ∧ 5 / 2 < 4
      ∧ reordered !! ((5 mod 2) * 4 + 5 / 2) = two_pages !! 5.
Proof.
  split; [reflexivity|]. split; [lia|].
  apply reorder_stride_destination; [reflexivity|lia].
Defined.

Lemma reorder_stride_source_page_law_witness :
  Forall (λ g : list string, length g = 4) two_groups
  ∧ ∃ reordered,
      reorder_stride (mjoin two_groups) = Ok (reordered, length two_groups)
      ∧ ∀ i j, i < length two_groups → j < 4 →
          reordered !! (i * 4 + j)
          = (two_groups !! ((i + j * length two_groups) / 4))
              ≫= (λ g, g !! ((i + j * length two_groups) mod 4)).
Proof.
  assert (Forall (λ g : list string, length g = 4) two_groups) as Hgroups
    by (repeat constructor).
  split; [exact Hgroups|]. exact (reorder_stride_source_page_law two_groups Hgroups).
Defined.

Lemma choose_src_fills_destination_witness :
  "in.pdf" ≠ ""
  ∧ (splitext "in.pdf").1 +:+ (splitext "in.pdf").2 = "in.pdf"
  ∧ text (MainWindow.src_edit (MainWindow._choose_src "in.pdf" MainWindow.__init__))
    = "in.pdf"
  ∧ text (MainWindow.dst_edit (MainWindow._choose_src "in.pdf" MainWindow.__init__))
    = (splitext "in.pdf").1 +:+ "_reordered" +:+ (splitext "in.pdf").2
  ∧ text (MainWindow.dst_edit (MainWindow._choose_src "in.pdf" MainWindow.__init__))
    ≠ text (MainWindow.src_edit (MainWindow._choose_src "in.pdf" MainWindow.__init__))
  ∧ MainWindow.status_label (MainWindow._choose_src "in.pdf" MainWindow.__init__)
    = MainWindow.status_label MainWindow.__init__
  ∧ MainWindow.worker (MainWindow._choose_src "in.pdf" MainWindow.__init__)
    = MainWindow.worker MainWindow.__init__
  ∧ MainWindow.shown (MainWindow._choose_src "in.pdf" MainWindow.__init__)
    = MainWindow.shown MainWindow.__init__.
Proof.
  assert ("in.pdf" ≠ "") as Hpath by discriminate.
  assert ((splitext "in.pdf").1 +:+ (splitext "in.pdf").2 = "in.pdf") as Hjoin
    by reflexivity.
  split; [exact Hpath|]. split; [exact Hjoin|].
  exact (choose_src_fills_destination "in.pdf" MainWindow.__init__ Hpath Hjoin).
Defined.

Lemma validate_paths_accepts_witness :
  MainWindow._validate_paths "in.pdf" "out/res.pdf" (∅ : gset string)
  = (Ok (), {[ "out" ]} ∪ ∅)
  ∧ "in.pdf" ≠ "" ∧ "out/res.pdf" ≠ ""
  ∧ isfile "in.pdf" (∅ : gset string) = true
  ∧ abspath "in.pdf" (∅ : gset string) ≠ abspath "out/res.pdf" (∅ : gset string)
  ∧ access_W_OK
      (if bool_decide (dirname "out/res.pdf" = "") then "." else dirname "out/res.pdf")
      ({[ "out" ]} ∪ ∅ : gset string) = true
  ∧ if path_exists
         (if bool_decide (dirname "out/res.pdf" = "") then "."
          else dirname "out/res.pdf") (∅ : gset string)
    then ({[ "out" ]} ∪ ∅ : gset string) = ∅
    else makedirs
           (if bool_decide (dirname "out/res.pdf" = "") then "."
            else dirname "out/res.pdf") (∅ : gset string)
         = (Ok (), {[ "out" ]} ∪ ∅).
Proof.
  assert (MainWindow._validate_paths "in.pdf" "out/res.pdf" (∅ : gset string)
          = (Ok (), {[ "out" ]} ∪ ∅)) as Hvalid by (by vm_compute).
  split; [exact Hvalid|].
  exact (validate_paths_accepts "in.pdf" "out/res.pdf" ∅ _ Hvalid).
Defined.

Lemma validate_paths_effect_witness :
  MainWindow._validate_paths "in.pdf" "out/res.pdf" (∅ : gset string)
  = (Ok (), {[ "out" ]} ∪ ∅)
  ∧ ({[ "out" ]} ∪ ∅ : gset string) ≠ ∅
  ∧ "in.pdf" ≠ "" ∧ "out/res.pdf" ≠ ""
  ∧ isfile "in.pdf" (∅ : gset string) = true
  ∧ abspath "in.pdf" (∅ : gset string) ≠ abspath "out/res.pdf" (∅ : gset string)
  ∧ path_exists
      (if bool_decide (dirname "out/res.pdf" = "") then "." else dirname "out/res.pdf")
      (∅ : gset string) = false
  ∧ (makedirs
       (if bool_decide (dirname "out/res.pdf" = "") then "." else dirname "out/res.pdf")
       (∅ : gset string)).2
    = {[ "out" ]} ∪ ∅.
Proof.
  assert (MainWindow._validate_paths "in.pdf" "out/res.pdf" (∅ : gset string)
          = (Ok (), {[ "out" ]} ∪ ∅)) as Hvalid by (by vm_compute).
  assert (({[ "out" ]} ∪ ∅ : gset string) ≠ ∅) as Hchanged.
  { intros Heq. apply (f_equal (λ s : gset string, bool_decide ("out" ∈ s))) in Heq.
    vm_compute in Heq. discriminate Heq. }
  split; [exact Hvalid|]. split; [exact Hchanged|].
  exact (validate_paths_effect "in.pdf" "out/res.pdf" ∅ _ _ Hvalid Hchanged).
Defined.

Lemma run_starts_worker_witness :
  ∃ win' st',
    MainWindow._run chosen_window (∅ : gset string) = (Ok win', st')
    ∧ MainWindow.shown win' = MainWindow.shown chosen_window
    ∧ MainWindow.worker win'
      = Some (strip (text (MainWindow.src_edit chosen_window)),
              strip (text (MainWindow.dst_edit chosen_window)))
    ∧ MainWindow.run_button win' = false
    ∧ isEnabled (MainWindow.src_edit win') = false
    ∧ isEnabled (MainWindow.dst_edit win') = false
    ∧ MainWindow.status_label win' = "Starting..."
    ∧ isfile (strip (text (MainWindow.src_edit chosen_window))) (∅ : gset string) = true
    ∧ abspath (strip (text (MainWindow.src_edit chosen_window))) (∅ : gset string)
      ≠ abspath (strip (text (MainWindow.dst_edit chosen_window))) (∅ : gset string)
    ∧ access_W_OK
        (if bool_decide (dirname (strip (text (MainWindow.dst_edit chosen_window))) = "")
         then "." else dirname (strip (text (MainWindow.dst_edit chosen_window)))) st'
      = true.
Proof.
  destruct (MainWindow._run chosen_window (∅ : gset string)) as [r st'] eqn:Hrun.
  destruct r as [win'|exc]; [|vm_compute in Hrun; discriminate Hrun].
  assert (MainWindow.shown win' = MainWindow.shown chosen_window) as Hshown.
  { vm_compute in Hrun. by injection Hrun as <- _. }
  exists win', st'. split; [reflexivity|]. split; [exact Hshown|].
  exact (run_starts_worker chosen_window ∅ win' st' Hrun Hshown).
Defined.

Lemma run_rejects_witness :
  ∃ win' st',
    MainWindow._run MainWindow.__init__ (∅ : gset string) = (Ok win', st')
    ∧ MainWindow.shown win' ≠ MainWindow.shown MainWindow.__init__
    ∧ ∃ msg,
        (MainWindow._validate_paths
           (strip (text (MainWindow.src_edit MainWindow.__init__)))
           (strip (text (MainWindow.dst_edit MainWindow.__init__)))
           (∅ : gset string)).1
        = Raise (ValueError msg)
        ∧ win' = MainWindow.show (warning "Invalid input" msg) MainWindow.__init__.
Proof.
  destruct (MainWindow._run MainWindow.__init__ (∅ : gset string))
    as [r st'] eqn:Hrun.
  destruct r as [win'|exc]; [|vm_compute in Hrun; discriminate Hrun].
  assert (MainWindow.shown win' ≠ MainWindow.shown MainWindow.__init__) as Hshown.
  { vm_compute in Hrun. by injection Hrun as <- _. }
  exists win', st'. split; [reflexivity|]. split; [exact Hshown|].
  exact (run_rejects MainWindow.__init__ ∅ win' st' Hrun Hshown).
Defined.

